(** * easy_shared_preferences: the Windows plugin registration entry point

    Source: [windows/easy_shared_preferences_plugin_c_api.cpp].

    The file holds one function,
    [EasySharedPreferencesPluginCApiRegisterWithRegistrar], whose body is a
    single expression statement:

      easy_shared_preferences::EasySharedPreferencesPlugin::RegisterWithRegistrar(
          flutter::PluginRegistrarManager::GetInstance()
              ->GetRegistrar<flutter::PluginRegistrarWindows>(registrar));

    The function is embedded as a term of a small free monad over the three
    calls it makes.  The calls are interpreted against the two collaborators
    (the registrar manager of the host framework and the plugin class), and
    the interpreter records every call in a log, so that statements about
    order, arguments and number of calls are statements about that log. *)

From Stdlib Require Import ZArith List Lia.
From stdpp Require Import base gmap.
Import ListNotations.

Local Open Scope Z_scope.

(** ** Data *)

(** [FlutterDesktopPluginRegistrarRef]: an opaque pointer owned by the host.
    Its value is kept as an integer address; [0] is the null pointer. *)
Definition FlutterDesktopPluginRegistrarRef : Type := Z.

Definition null_registrar : FlutterDesktopPluginRegistrarRef := 0.

(** The template argument of [GetRegistrar<T>]: the wrapper class the caller
    asks for.  The entry point always asks for [PluginRegistrarWindows]. *)
Inductive registrar_class : Type :=
| PluginRegistrar
| PluginRegistrarWindows.

(** A registrar wrapper object: its dynamic class and the handle it wraps. *)
Record wrapper : Type := Wrapper {
  wrapper_class : registrar_class;
  wrapper_ref : FlutterDesktopPluginRegistrarRef
}.

(** [T*]: a pointer to a wrapper; [None] is [nullptr]. *)
Definition wrapper_ptr : Type := option wrapper.

(** [PluginRegistrarManager*]: there is one manager per process, so a pointer
    to it carries no information beyond being that pointer. *)
Inductive manager_ptr : Type := the_instance.

(** ** Programs *)

(** The calls the translation unit makes to code outside of it, indexed by
    the type of what the call returns. *)
Inductive call : Type -> Type :=
| GetInstance : call manager_ptr
| GetRegistrar (T : registrar_class) (self : manager_ptr)
    (registrar_ref : FlutterDesktopPluginRegistrarRef) : call wrapper_ptr
| RegisterWithRegistrar (registrar : wrapper_ptr) : call unit.

(** A function body: it returns, throws an exception of its own, or makes a
    call and continues with the value the call returned. *)
Inductive prog (R : Type) : Type :=
| Return (r : R)
| Throw
| Invoke (X : Type) (c : call X) (k : X -> prog R).

Arguments Return {R} r.
Arguments Throw {R}.
Arguments Invoke {R X} c k.

Definition invoke {X : Type} (c : call X) : prog X := Invoke c Return.

Fixpoint bind {A B : Type} (p : prog A) (f : A -> prog B) : prog B :=
  match p with
  | Return a => f a
  | Throw => Throw
  | Invoke c k => Invoke c (fun x => bind (k x) f)
  end.

Notation "x <- p ;; q" := (bind p (fun x => q))
  (at level 100, p at next level, right associativity).

(** ** The entry point

    C++ evaluates the argument of the outer call before the call, and the
    object expression [GetInstance()] before the member call on it; the
    order below is the only one the expression allows. *)
Definition EasySharedPreferencesPluginCApiRegisterWithRegistrar
    (registrar : FlutterDesktopPluginRegistrarRef) : prog unit :=
  self <- invoke GetInstance ;;
  windows_registrar <-
    invoke (GetRegistrar PluginRegistrarWindows self registrar) ;;
  invoke (RegisterWithRegistrar windows_registrar).

(** ** Running a program against the collaborators *)

Inductive outcome (R : Type) : Type :=
| Returns (r : R)
| Throws.

Arguments Returns {R} r.
Arguments Throws {R}.

(** One entry of the call log: the call with its arguments and, for the
    lookup, the pointer it returned. *)
Inductive event : Type :=
| CallGetInstance
| CallGetRegistrar (T : registrar_class)
    (registrar_ref : FlutterDesktopPluginRegistrarRef) (result : wrapper_ptr)
| CallRegisterWithRegistrar (registrar : wrapper_ptr).

(** The process state: the singleton manager, and everything else (the
    plugin's own objects, the host's channels, any other global). *)
Record process (M P : Type) : Type := Process {
  manager : M;
  rest : P
}.

Arguments Process {M P} manager rest.
Arguments manager {M P} p.
Arguments rest {M P} p.

Record run (M P R : Type) : Type := Run {
  calls : list event;
  final : process M P;
  result : outcome R
}.

Arguments Run {M P R} calls final result.
Arguments calls {M P R} r.
Arguments final {M P R} r.
Arguments result {M P R} r.

Section Interpreter.

(** The manager's state and the rest of the process are left abstract. *)
Context {M P : Type}.

(** [PluginRegistrarManager::GetRegistrar<T>]: host framework code.  It
    sees the manager and the handle, returns a wrapper pointer, and leaves
    the manager in a state of its choosing. *)
Variable get_registrar :
  registrar_class -> FlutterDesktopPluginRegistrarRef -> M -> wrapper_ptr * M.

(** [EasySharedPreferencesPlugin::RegisterWithRegistrar]: the plugin class.
    It may change anything in the process, and it returns or throws. *)
Variable register_with_registrar :
  wrapper_ptr -> process M P -> outcome unit * process M P.

Definition perform {X : Type} (c : call X) (s : process M P)
  : event * process M P * outcome X :=
  match c in call X0 return event * process M P * outcome X0 with
  | GetInstance =>
      (* the singleton lives as long as the process: taking its address
         changes nothing *)
      (CallGetInstance, s, Returns the_instance)
  | GetRegistrar T _ registrar_ref =>
      let (w, m') := get_registrar T registrar_ref (manager s) in
      (CallGetRegistrar T registrar_ref w, Process m' (rest s), Returns w)
  | RegisterWithRegistrar w =>
      let (o, s') := register_with_registrar w s in
      (CallRegisterWithRegistrar w, s', o)
  end.

Fixpoint exec {R : Type} (p : prog R) (s : process M P) : run M P R :=
  match p with
  | Return r => Run [] s (Returns r)
  | Throw => Run [] s Throws
  | Invoke c k =>
      match perform c s with
      | (ev, s', Returns x) =>
          let r := exec (k x) s' in
          Run (ev :: calls r) (final r) (result r)
      | (ev, s', Throws) => Run [ev] s' Throws
      end
  end.

(** One invocation of the entry point by the host, in process state [s]. *)
Definition run_entry_point
    (registrar : FlutterDesktopPluginRegistrarRef) (s : process M P)
  : run M P unit :=
  exec (EasySharedPreferencesPluginCApiRegisterWithRegistrar registrar) s.

End Interpreter.

(** ** Reading a call log *)

(** The wrapper pointers handed to the plugin's registration method, one per
    call of it, in call order. *)
Definition registrations (log : list event) : list wrapper_ptr :=
  flat_map (fun ev => match ev with
                      | CallRegisterWithRegistrar w => [w]
                      | _ => []
                      end) log.

(** The registrar handles that appear as an argument of some call. *)
Definition handles_passed (log : list event)
  : list FlutterDesktopPluginRegistrarRef :=
  flat_map (fun ev => match ev with
                      | CallGetRegistrar _ registrar_ref _ => [registrar_ref]
                      | _ => []
                      end) log.

(** Which function a log entry calls, arguments and results forgotten. *)
Inductive callee : Type :=
| to_GetInstance
| to_GetRegistrar
| to_RegisterWithRegistrar.

Definition callee_of (ev : event) : callee :=
  match ev with
  | CallGetInstance => to_GetInstance
  | CallGetRegistrar _ _ _ => to_GetRegistrar
  | CallRegisterWithRegistrar _ => to_RegisterWithRegistrar
  end.

(** A body without a [throw] of its own, whatever its calls return. *)
Inductive throw_free {R : Type} : prog R -> Prop :=
| throw_free_Return (r : R) : throw_free (Return r)
| throw_free_Invoke (X : Type) (c : call X) (k : X -> prog R) :
    (forall x, throw_free (k x)) -> throw_free (Invoke c k).

(** ** Stand-ins for the plugin class

    The theorems below hold for every registration method.  Two fixed ones
    serve as probes: one that returns at once without touching anything, so
    that a run against it shows exactly what happens outside of the delegated
    call, and one that throws at once. *)
Definition returns_at_once {M P : Type}
    (_ : wrapper_ptr) (s : process M P) : outcome unit * process M P :=
  (Returns tt, s).

Definition throws_at_once {M P : Type}
    (_ : wrapper_ptr) (s : process M P) : outcome unit * process M P :=
  (Throws, s).

(** ** The registrar manager *)

(** Modelled from the spec: [flutter::PluginRegistrarManager] and its member
    template [GetRegistrar<T>] belong to the host framework's client wrapper
    ([flutter/plugin_registrar_windows.h] is only included by the source).
    The spec calls the manager "a process-wide registry mapping opaque
    handles to strongly-typed registrar wrappers", the operation "look
    up/construct the windows-specific registrar wrapper for that handle", and
    says of the manager that "this code only reads from (a lookup), never
    mutates" it.  So the registry is a finite map from handles to wrappers;
    the wrapper kept for the handle is returned when there is one, otherwise
    a wrapper of the requested class is constructed around the handle and
    returned; the registry is left as it was in both cases. *)
Definition PluginRegistrarManager_GetRegistrar
    (T : registrar_class) (registrar_ref : FlutterDesktopPluginRegistrarRef)
    (registrars_ : gmap Z wrapper) : wrapper_ptr * gmap Z wrapper :=
  match registrars_ !! registrar_ref with
  | Some w => (Some w, registrars_)
  | None => (Some (Wrapper T registrar_ref), registrars_)
  end.

(** The entry point run in a process whose manager is that registry. *)
Definition register_plugin {P : Type}
    (register_with_registrar :
       wrapper_ptr -> process (gmap Z wrapper) P
       -> outcome unit * process (gmap Z wrapper) P)
    (registrar : FlutterDesktopPluginRegistrarRef)
    (s : process (gmap Z wrapper) P) : run (gmap Z wrapper) P unit :=
  run_entry_point PluginRegistrarManager_GetRegistrar register_with_registrar
    registrar s.

(** A manager that only looks up: it hands out the wrapper kept for the
    handle and [nullptr] when there is none, and never constructs one.  It
    serves to run the entry point on a lookup that comes back empty. *)
Definition lookup_only_GetRegistrar
    (_ : registrar_class) (registrar_ref : FlutterDesktopPluginRegistrarRef)
    (registrars_ : gmap Z wrapper) : wrapper_ptr * gmap Z wrapper :=
  (registrars_ !! registrar_ref, registrars_).

(** A manager whose lookup changes it: the wrapper it constructs for a
    handle it does not know is kept under that handle.  It serves to run the
    entry point against a lookup with an effect. *)
Definition keeping_GetRegistrar
    (T : registrar_class) (registrar_ref : FlutterDesktopPluginRegistrarRef)
    (registrars_ : gmap Z wrapper) : wrapper_ptr * gmap Z wrapper :=
  match registrars_ !! registrar_ref with
  | Some w => (Some w, registrars_)
  | None =>
      let w := Wrapper T registrar_ref in
      (Some w, <[registrar_ref := w]> registrars_)
  end.

(** * Properties *)

(** ** The run of the entry point, in closed form *)

Section EntryPoint.

Context {M P : Type}.
Variable get_registrar :
  registrar_class -> FlutterDesktopPluginRegistrarRef -> M -> wrapper_ptr * M.
Variable register_with_registrar :
  wrapper_ptr -> process M P -> outcome unit * process M P.

(** Sequencing: the calls of [p] come first; what follows runs in the state
    [p] left, and does not run at all when [p] threw. *)
Lemma exec_bind {A B : Type} (p : prog A) (f : A -> prog B)
    (s : process M P) :
  exec get_registrar register_with_registrar (bind p f) s
  = let r := exec get_registrar register_with_registrar p s in
    match result r with
    | Returns a =>
        let r' := exec get_registrar register_with_registrar (f a) (final r) in
        Run (calls r ++ calls r') (final r') (result r')
    | Throws => Run (calls r) (final r) Throws
    end.
Proof.
  revert s. induction p as [a| |X c k IH]; intros s; cbn.
  - destruct (exec get_registrar register_with_registrar (f a) s);
      reflexivity.
  - reflexivity.
  - destruct (perform get_registrar register_with_registrar c s)
      as [[ev s'] [x|]]; cbn; [|reflexivity].
    rewrite IH. cbn.
    destruct (result (exec get_registrar register_with_registrar (k x) s'));
      reflexivity.
Qed.

Lemma throw_free_bind {A B : Type} (p : prog A) (f : A -> prog B) :
  throw_free p -> (forall a, throw_free (f a)) -> throw_free (bind p f).
Proof.
  intros Hp Hf. induction Hp as [a|X c k _ IH]; cbn.
  - apply Hf.
  - constructor. exact IH.
Qed.

Lemma throw_free_invoke {X : Type} (c : call X) : throw_free (invoke c).
Proof. constructor. intros x. constructor. Qed.

Lemma exec_entry_point (registrar : FlutterDesktopPluginRegistrarRef)
    (s : process M P) :
  let found := get_registrar PluginRegistrarWindows registrar (manager s) in
  let delegated :=
    register_with_registrar (fst found) (Process (snd found) (rest s)) in
  run_entry_point get_registrar register_with_registrar registrar s
  = Run [CallGetInstance;
         CallGetRegistrar PluginRegistrarWindows registrar (fst found);
         CallRegisterWithRegistrar (fst found)]
        (snd delegated) (fst delegated).
Proof.
  unfold run_entry_point. cbn.
  destruct (get_registrar PluginRegistrarWindows registrar (manager s))
    as [w m'].
  cbn.
  destruct (register_with_registrar w (Process m' (rest s))) as [[[]|] s'];
    reflexivity.
Qed.


End EntryPoint.

(** ** What holds for every manager and every plugin *)

Section Claims.

Context {M P : Type}.
Variable get_registrar :
  registrar_class -> FlutterDesktopPluginRegistrarRef -> M -> wrapper_ptr * M.
Variable register_with_registrar :
  wrapper_ptr -> process M P -> outcome unit * process M P.

(** C1.  For every registrar handle, the entry point makes exactly three
    calls, in this order and nothing else: it takes the singleton manager
    ([GetInstance]), asks it for the [PluginRegistrarWindows] wrapper of the
    handle it received ([GetRegistrar]), and calls the plugin class's
    [RegisterWithRegistrar] with the very pointer that lookup returned. *)
Theorem entry_point_call_sequence
    (registrar : FlutterDesktopPluginRegistrarRef) (s : process M P) :
  let resolved :=
    fst (get_registrar PluginRegistrarWindows registrar (manager s)) in
  calls (run_entry_point get_registrar register_with_registrar registrar s)
  = [CallGetInstance;
     CallGetRegistrar PluginRegistrarWindows registrar resolved;
     CallRegisterWithRegistrar resolved].
Proof.
  intros resolved. rewrite exec_entry_point. reflexivity.
Qed.

(** C4.  The entry point has no failure of its own: its body contains no
    [throw], and the way it completes is the way the delegated registration
    call completes -- it returns when that call returns and it throws only
    when that call throws. *)
Theorem entry_point_completes_as_delegated_call
    (registrar : FlutterDesktopPluginRegistrarRef) (s : process M P) :
  let found := get_registrar PluginRegistrarWindows registrar (manager s) in
  throw_free (EasySharedPreferencesPluginCApiRegisterWithRegistrar registrar)
  /\ result (run_entry_point get_registrar register_with_registrar registrar s)
     = fst (register_with_registrar (fst found)
              (Process (snd found) (rest s))).
Proof.
  intros found. split.
  - unfold EasySharedPreferencesPluginCApiRegisterWithRegistrar.
    repeat (apply throw_free_bind; [apply throw_free_invoke | intros ?]).
    apply throw_free_invoke.
  - rewrite exec_entry_point. reflexivity.
Qed.

(** C6.  The handle is only passed on: the one handle that appears as an
    argument in the call log is the handle received, given to the manager's
    lookup, and outside of the delegated call nothing but the manager (which
    belongs to the lookup) differs from the state at entry -- this code keeps
    the handle nowhere and releases or changes nothing. *)
Theorem entry_point_passes_handle_on
    (registrar : FlutterDesktopPluginRegistrarRef) (s : process M P) :
  handles_passed
    (calls (run_entry_point get_registrar register_with_registrar
              registrar s))
  = [registrar]
  /\ rest (final (run_entry_point get_registrar returns_at_once registrar s))
     = rest s.
Proof.
  split.
  - rewrite exec_entry_point. reflexivity.
  - rewrite exec_entry_point. reflexivity.
Qed.

(** C7.  Nothing is checked and nothing branches: for every handle, the null
    handle included, and whatever the lookup returns, the calls made are the
    same three functions, the lookup is made with the handle as it came in,
    and the plugin's registration method is called with the lookup's
    result. *)
Theorem entry_point_never_validates
    (registrar : FlutterDesktopPluginRegistrarRef) (s : process M P) :
  let resolved :=
    fst (get_registrar PluginRegistrarWindows registrar (manager s)) in
  map callee_of
    (calls (run_entry_point get_registrar register_with_registrar
              registrar s))
  = [to_GetInstance; to_GetRegistrar; to_RegisterWithRegistrar]
  /\ In (CallGetRegistrar PluginRegistrarWindows registrar resolved)
        (calls (run_entry_point get_registrar register_with_registrar
                  registrar s))
  /\ In (CallRegisterWithRegistrar resolved)
        (calls (run_entry_point get_registrar register_with_registrar
                  registrar s)).
Proof.
  intros resolved. rewrite exec_entry_point. cbn.
  split; [reflexivity|]. split; auto.
Qed.

End Claims.

(** ** What holds with the manager as a registry of wrappers *)



(** A handle the registry knows resolves to the wrapper kept for it,
    whatever class is asked for; an unknown one to a wrapper of the class
    asked for, around that handle. *)
Lemma GetRegistrar_known (T : registrar_class)
    (registrar_ref : FlutterDesktopPluginRegistrarRef)
    (registrars_ : gmap Z wrapper) (w : wrapper) :
  registrars_ !! registrar_ref = Some w ->
  fst (PluginRegistrarManager_GetRegistrar T registrar_ref registrars_)
  = Some w.
Proof.
  intros Hw. unfold PluginRegistrarManager_GetRegistrar.
  rewrite Hw. reflexivity.
Qed.

Lemma GetRegistrar_unknown (T : registrar_class)
    (registrar_ref : FlutterDesktopPluginRegistrarRef)
    (registrars_ : gmap Z wrapper) :
  registrars_ !! registrar_ref = None ->
  fst (PluginRegistrarManager_GetRegistrar T registrar_ref registrars_)
  = Some (Wrapper T registrar_ref).
Proof.
  intros Hw. unfold PluginRegistrarManager_GetRegistrar.
  rewrite Hw. reflexivity.
Qed.



(** ** Runs on concrete processes *)

Example first_registration :
  register_plugin returns_at_once 42 (Process ∅ tt)
  = Run [CallGetInstance;
         CallGetRegistrar PluginRegistrarWindows 42
           (Some (Wrapper PluginRegistrarWindows 42));
         CallRegisterWithRegistrar (Some (Wrapper PluginRegistrarWindows 42))]
        (Process ∅ tt)
        (Returns tt).
Proof. reflexivity. Qed.

Example registration_of_a_known_handle :
  let registry : gmap Z wrapper := {[ 42 := Wrapper PluginRegistrar 42 ]} in
  register_plugin returns_at_once 42 (Process registry tt)
  = Run [CallGetInstance;
         CallGetRegistrar PluginRegistrarWindows 42
           (Some (Wrapper PluginRegistrar 42));
         CallRegisterWithRegistrar (Some (Wrapper PluginRegistrar 42))]
        (Process registry tt)
        (Returns tt).
Proof. reflexivity. Qed.

Example registration_with_null_handle :
  calls (register_plugin returns_at_once null_registrar (Process ∅ tt))
  = [CallGetInstance;
     CallGetRegistrar PluginRegistrarWindows 0
       (Some (Wrapper PluginRegistrarWindows 0));
     CallRegisterWithRegistrar (Some (Wrapper PluginRegistrarWindows 0))].
Proof. reflexivity. Qed.

Example registration_that_throws :
  result (register_plugin throws_at_once 42 (Process ∅ tt)) = Throws
  /\ length (calls (register_plugin throws_at_once 42 (Process ∅ tt)))
     = 3%nat.
Proof. split; reflexivity. Qed.

(** ** Edge behaviour of the entry point *)

(** X1.  The result of the lookup is not checked either: when the manager
    returns [nullptr] for the handle, the plugin's [RegisterWithRegistrar]
    is still called, once, and the null pointer is what it receives. *)
Theorem null_wrapper_is_forwarded {M P : Type}
    (get_registrar :
       registrar_class -> FlutterDesktopPluginRegistrarRef -> M
       -> wrapper_ptr * M)
    (register_with_registrar :
       wrapper_ptr -> process M P -> outcome unit * process M P)
    (registrar : FlutterDesktopPluginRegistrarRef) (s : process M P) :
  fst (get_registrar PluginRegistrarWindows registrar (manager s)) = None ->
  registrations
    (calls (run_entry_point get_registrar register_with_registrar
              registrar s))
  = [None].
Proof.
  intros Hnull. rewrite exec_entry_point. cbn. rewrite Hnull. reflexivity.
Qed.

Lemma null_wrapper_is_forwarded_witness :
  fst (lookup_only_GetRegistrar PluginRegistrarWindows 42
         (manager (Process (∅ : gmap Z wrapper) tt)))
  = None
  /\ registrations
       (calls (run_entry_point lookup_only_GetRegistrar returns_at_once 42
                 (Process (∅ : gmap Z wrapper) tt)))
     = [None].
Proof.
  split; [reflexivity|].
  apply (null_wrapper_is_forwarded lookup_only_GetRegistrar returns_at_once
           42 (Process (∅ : gmap Z wrapper) tt)).
  reflexivity.
Defined.

(** X2.  Nothing is caught and nothing is undone: when the delegated
    registration call throws, the entry point throws, and the state it leaves
    is the one the throwing call left -- what the lookup did to the manager
    before stays in place. *)
Theorem throwing_registration_is_not_rolled_back {M P : Type}
    (get_registrar :
       registrar_class -> FlutterDesktopPluginRegistrarRef -> M
       -> wrapper_ptr * M)
    (register_with_registrar :
       wrapper_ptr -> process M P -> outcome unit * process M P)
    (registrar : FlutterDesktopPluginRegistrarRef) (s : process M P) :
  let found := get_registrar PluginRegistrarWindows registrar (manager s) in
  let delegated :=
    register_with_registrar (fst found) (Process (snd found) (rest s)) in
  fst delegated = Throws ->
  result (run_entry_point get_registrar register_with_registrar registrar s)
  = Throws
  /\ final (run_entry_point get_registrar register_with_registrar
              registrar s)
     = snd delegated.
Proof.
  intros found delegated Hthrows. rewrite exec_entry_point. cbn.
  split; [exact Hthrows | reflexivity].
Qed.

Lemma throwing_registration_is_not_rolled_back_witness :
  result (run_entry_point keeping_GetRegistrar throws_at_once 42
            (Process ∅ tt))
  = Throws
  /\ final (run_entry_point keeping_GetRegistrar throws_at_once 42
              (Process ∅ tt))
     = Process {[ 42 := Wrapper PluginRegistrarWindows 42 ]} tt.
Proof.
  exact (throwing_registration_is_not_rolled_back
           keeping_GetRegistrar throws_at_once 42
           (Process ∅ tt) eq_refl).
Defined.
